(** * Magma core: thread lifecycle wrappers ([core/thread/thread.c])

    A shallow embedding of the pthread wrappers of [thread.c].  Every wrapper
    is a short sequence of calls into code that lives outside the file
    (libpthread, the allocator [mm_alloc]/[mm_free], the logging macro
    [mclog_pedantic]) with C's early returns in between.  The embedding keeps
    exactly that shape: a wrapper is a computation in a state monad over a
    [World], each outside call asks a [Platform] for its answer and appends
    one [event] to the world's trace, and the properties are read off the
    events a wrapper appended, its return value and the memory it left. *)

From Stdlib Require Import ZArith List String Bool Lia.
From stdpp Require Import base gmap.
Import ListNotations.

#[local] Open Scope Z_scope.

(** ** C types *)

(** [int_t] is Magma's 32-bit [int]; the status codes of the pthread calls are
    [int]s already, so no conversion happens on assignment. *)
Definition int_t : Type := Z.
(** [pthread_t] is an integral thread identifier. *)
Definition pthread_t : Type := Z.
(** [void *], [pthread_t *] and [void **]: an address, with [NULL] at 0. *)
Definition ptr : Type := Z.
Definition NULL : ptr := 0.

(** [<errno.h>]: "No such process" (its Linux value; only [ESRCH_nonzero]
    below is ever used about it). *)
Definition ESRCH : int_t := 3.

(** The two states accepted by [pthread_setcancelstate]. *)
Inductive cancelstate : Type :=
| PTHREAD_CANCEL_ENABLE
| PTHREAD_CANCEL_DISABLE.

(** [magma_core.system.thread_stack_size], the only global the file reads. *)
Record system_t : Type := { thread_stack_size : Z }.
Record magma_t : Type := { system : system_t }.

(** ** Calls that leave the file

    One constructor per outside function, carrying the arguments the wrapper
    passed and the answer that came back.  The attribute calls all take the
    address of the one local [attributes] of [thread_launch], which is left
    out. *)
Inductive event : Type :=
| Ev_pthread_self (tid : pthread_t)
| Ev_pthread_attr_init (status : int_t)
| Ev_pthread_attr_setstacksize (stacksize : Z) (status : int_t)
| Ev_pthread_attr_destroy (status : int_t)
| Ev_pthread_create (thread function data : ptr) (status : int_t) (tid : pthread_t)
| Ev_pthread_join (thread : pthread_t) (retval : ptr) (status : int_t) (exitval : ptr)
| Ev_pthread_kill (thread : pthread_t) (signal : int_t) (status : int_t)
| Ev_pthread_cancel (thread : pthread_t) (status : int_t)
| Ev_pthread_setcancelstate (state : cancelstate) (oldstate : ptr) (status : int_t)
| Ev_mclog_pedantic (format : string) (arg : Z)
| Ev_mm_alloc (len : Z) (block : ptr)
| Ev_mm_free (block : ptr).

(** The state a wrapper runs in: the global configuration, the memory reached
    through the pointers handed to the wrappers, and the calls made so far
    (oldest first). *)
Record World : Type := mkWorld {
  magma_core : magma_t;
  memory : gmap Z Z;
  trace : list event
}.

(** What [pthread_create] answers: its status and the identifier of the new
    thread, which a successful call stores at [*thread].  After a failed call
    the contents of [*thread] are undefined (glibc has written there by the
    time it learns that the thread cannot be created), so the answer also
    says whether a failed call wrote [*thread], [create_tid] being what it
    left there. *)
Record created : Type := mkCreated {
  create_status : int_t;
  create_tid : pthread_t;
  create_wrote : bool
}.

(** What the outside answers.  Each answer may depend on everything that
    happened before (the world at the time of the call) and on the arguments.
    Nothing is assumed about the answers: any status can come back from any
    call. *)
Record Platform : Type := mkPlatform {
  sizeof_pthread_t : Z;
  os_pthread_self : World -> pthread_t;
  os_pthread_attr_init : World -> int_t;
  os_pthread_attr_setstacksize : World -> Z -> int_t;
  os_pthread_attr_destroy : World -> int_t;
  os_pthread_create : World -> ptr -> ptr -> created;
  (* status, and the exit value of the joined thread *)
  os_pthread_join : World -> pthread_t -> int_t * ptr;
  os_pthread_kill : World -> pthread_t -> int_t -> int_t;
  os_pthread_cancel : World -> pthread_t -> int_t;
  os_pthread_setcancelstate : World -> cancelstate -> int_t;
  os_mm_alloc : World -> Z -> ptr
}.

(** ** The monad of wrappers *)

Definition M (A : Type) : Type := World -> A * World.

Definition pure {A} (a : A) : M A := fun w => (a, w).
Definition bind {A B} (m : M A) (k : A -> M B) : M B :=
  fun w => let (a, w') := m w in k a w'.

Declare Scope thread_scope.
Delimit Scope thread_scope with thread.
Notation "x <- m ;; k" := (bind m (fun x => k))
  (at level 100, m at next level, right associativity) : thread_scope.
Notation "m ;; k" := (bind m (fun _ => k))
  (at level 100, right associativity) : thread_scope.
#[local] Open Scope thread_scope.

(** Read something off the current world. *)
Definition ask {A} (f : World -> A) : M A := fun w => (f w, w).
(** Record a call. *)
Definition emit (e : event) : M unit :=
  fun w => (tt, mkWorld (magma_core w) (memory w) (trace w ++ [e])).
(** [*p = v]. *)
Definition store (p : ptr) (v : Z) : M unit :=
  fun w => (tt, mkWorld (magma_core w) (<[p := v]> (memory w)) (trace w)).

(** C's [if (x)] on an integer or a pointer. *)
Definition truthy (x : Z) : bool := negb (x =? 0).

Section Thread.

(** The build: whether [MAGMA_PEDANTIC] is defined. *)
Variable MAGMA_PEDANTIC : bool.
Variable os : Platform.

(** *** Outside functions *)

Definition pthread_self : M pthread_t :=
  tid <- ask (os_pthread_self os) ;;
  emit (Ev_pthread_self tid) ;;
  pure tid.

Definition pthread_attr_init : M int_t :=
  status <- ask (os_pthread_attr_init os) ;;
  emit (Ev_pthread_attr_init status) ;;
  pure status.

Definition pthread_attr_setstacksize (stacksize : Z) : M int_t :=
  status <- ask (fun w => os_pthread_attr_setstacksize os w stacksize) ;;
  emit (Ev_pthread_attr_setstacksize stacksize status) ;;
  pure status.

Definition pthread_attr_destroy : M int_t :=
  status <- ask (os_pthread_attr_destroy os) ;;
  emit (Ev_pthread_attr_destroy status) ;;
  pure status.

(** On success the identifier of the new thread is written to [*thread]
    ("a pointer to a pthread object to receive the new thread id"); on
    failure [*thread] is written or not as the platform says. *)
Definition pthread_create (thread function data : ptr) : M int_t :=
  r <- ask (fun w => os_pthread_create os w function data) ;;
  emit (Ev_pthread_create thread function data (create_status r) (create_tid r)) ;;
  (if (create_status r =? 0) || create_wrote r
   then store thread (create_tid r) else pure tt) ;;
  pure (create_status r).

(** On success, and when [retval] is not [NULL], the exit value of the target
    is written to [*retval] ("a pointer to a block of memory to receive the
    target thread exit value"). *)
Definition pthread_join (thread : pthread_t) (retval : ptr) : M int_t :=
  r <- ask (fun w => os_pthread_join os w thread) ;;
  emit (Ev_pthread_join thread retval (fst r) (snd r)) ;;
  (if (fst r =? 0) && truthy retval then store retval (snd r) else pure tt) ;;
  pure (fst r).

Definition pthread_kill (thread : pthread_t) (signal : int_t) : M int_t :=
  status <- ask (fun w => os_pthread_kill os w thread signal) ;;
  emit (Ev_pthread_kill thread signal status) ;;
  pure status.

Definition pthread_cancel (thread : pthread_t) : M int_t :=
  status <- ask (fun w => os_pthread_cancel os w thread) ;;
  emit (Ev_pthread_cancel thread status) ;;
  pure status.

Definition pthread_setcancelstate (state : cancelstate) (oldstate : ptr) : M int_t :=
  status <- ask (fun w => os_pthread_setcancelstate os w state) ;;
  emit (Ev_pthread_setcancelstate state oldstate status) ;;
  pure status.

(** The logging macro, with the one argument every use in the file gives it.
    What the macro expands to is decided outside the file. *)
Definition mclog_pedantic (format : string) (arg : Z) : M unit :=
  emit (Ev_mclog_pedantic format arg).

Definition mm_alloc (len : Z) : M ptr :=
  block <- ask (fun w => os_mm_alloc os w len) ;;
  emit (Ev_mm_alloc len block) ;;
  pure block.

Definition mm_free (block : ptr) : M unit :=
  emit (Ev_mm_free block).

(** *** The wrappers of [thread.c] *)

Definition thread_get_thread_id : M pthread_t :=
  pthread_self.

Definition thread_launch (thread function data : ptr) : M int_t :=
  result <- pthread_attr_init ;;
  if truthy result then
    mclog_pedantic
      "Could not initialize the thread attribute structure. {pthread_attr_init = %i}"
      result ;;
    pure result
  else
    stack <- ask (fun w => thread_stack_size (system (magma_core w))) ;;
    result <- pthread_attr_setstacksize stack ;;
    if truthy result then
      mclog_pedantic
        "Could not set the stack size correctly. {pthread_attr_setstacksize = %i}"
        result ;;
      pthread_attr_destroy ;;
      pure result
    else
      result <- pthread_create thread function data ;;
      if truthy result then
        mclog_pedantic
          "Could not initialize a new thread. {pthread_create = %i}" result ;;
        pthread_attr_destroy ;;
        pure result
      else
        pthread_attr_destroy ;;
        pure result.

Definition thread_alloc (function data : ptr) : M ptr :=
  result <- mm_alloc (sizeof_pthread_t os) ;;
  if negb (truthy result) then
    mclog_pedantic
      "Could not allocate %zu bytes to hold the pthread_t structure."
      (sizeof_pthread_t os) ;;
    pure NULL
  else
    ret <- thread_launch result function data ;;
    if truthy ret then
      mclog_pedantic
        "An error occurred while attempting to spawn the thread. {thread_init = %i}"
        ret ;;
      mm_free result ;;
      pure NULL
    else
      pure result.

Definition thread_join (thread : pthread_t) : M int_t :=
  ret <- pthread_join thread NULL ;;
  (if truthy ret then
     mclog_pedantic
       "Could not join to the requested thread. { pthread_join = %i }" ret
   else pure tt) ;;
  pure ret.

Definition thread_result (thread : pthread_t) (result : ptr) : M int_t :=
  ret <- pthread_join thread result ;;
  (if truthy ret then
     mclog_pedantic
       "Could not join to the requested thread. { pthread_join = %i }" ret
   else pure tt) ;;
  pure ret.

Definition thread_signal (thread : pthread_t) (signal : int_t) : M int_t :=
  pthread_kill thread signal.

Definition thread_cancel (thread : pthread_t) : M int_t :=
  if MAGMA_PEDANTIC then
    result <- pthread_cancel thread ;;
    (* ESRCH is returned if the thread has already exited, so no message. *)
    (if truthy result && negb (result =? ESRCH) then
       mclog_pedantic
         "Could not cancel the requested thread. {pthread_cancel = %i}" result
     else pure tt) ;;
    pure result
  else
    pthread_cancel thread.

Definition thread_cancel_enable : M unit :=
  pthread_setcancelstate PTHREAD_CANCEL_ENABLE NULL ;;
  pure tt.

Definition thread_cancel_disable : M unit :=
  pthread_setcancelstate PTHREAD_CANCEL_DISABLE NULL ;;
  pure tt.

End Thread.

(** ** Reading a run *)

(** The value a wrapper returns when started in [w]. *)
Definition returned {A} (m : M A) (w : World) : A := fst (m w).
(** The world it leaves. *)
Definition after {A} (m : M A) (w : World) : World := snd (m w).
(** The outside calls it made, in order. *)
Definition calls {A} (m : M A) (w : World) : list event :=
  drop (length (trace w)) (trace (after m w)).

(** *** Diagnostics *)

(** The entries handed to the logging macro: format string and argument. *)
Definition diagnostic_of (e : event) : option (string * Z) :=
  match e with
  | Ev_mclog_pedantic format arg => Some (format, arg)
  | _ => None
  end.

Definition diagnostics (es : list event) : list (string * Z) :=
  omap diagnostic_of es.

(** *** The three steps of a launch *)

Inductive launch_step : Type :=
| StepAttrInit      (* pthread_attr_init *)
| StepAttrStackSize (* pthread_attr_setstacksize *)
| StepCreate.       (* pthread_create *)

#[global] Instance launch_step_eq_dec : EqDecision launch_step.
Proof. solve_decision. Defined.

(** The step an event is an attempt of, with the status that came back. *)
Definition step_of (e : event) : option (launch_step * int_t) :=
  match e with
  | Ev_pthread_attr_init s => Some (StepAttrInit, s)
  | Ev_pthread_attr_setstacksize _ s => Some (StepAttrStackSize, s)
  | Ev_pthread_create _ _ _ s _ => Some (StepCreate, s)
  | _ => None
  end.

Definition steps (es : list event) : list (launch_step * int_t) :=
  omap step_of es.

(** The first attempted step that came back with a non-zero status. *)
Definition first_failure (es : list event) : option (launch_step * int_t) :=
  head (filter (fun a => snd a <> 0) (steps es)).

(** The steps that come before a given one, each with status 0. *)
Definition succeeded_before (k : launch_step) : list (launch_step * int_t) :=
  match k with
  | StepAttrInit => []
  | StepAttrStackSize => [(StepAttrInit, 0)]
  | StepCreate => [(StepAttrInit, 0); (StepAttrStackSize, 0)]
  end.

(** The message each failing step is reported with. *)
Definition launch_message (k : launch_step) : string :=
  match k with
  | StepAttrInit =>
      "Could not initialize the thread attribute structure. {pthread_attr_init = %i}"
  | StepAttrStackSize =>
      "Could not set the stack size correctly. {pthread_attr_setstacksize = %i}"
  | StepCreate =>
      "Could not initialize a new thread. {pthread_create = %i}"
  end.

(** *** The attribute structure *)

(** Life of the local [attributes]: a successful [pthread_attr_init] makes it
    live, [pthread_attr_destroy] releases it (the wrappers ignore the status
    of that call, so the call itself is what counts), and using it in any
    other state is a misuse. *)
Inductive attr_state : Type :=
| AttrUninitialized
| AttrLive
| AttrDestroyed
| AttrMisused.

Definition attr_step (st : attr_state) (e : event) : attr_state :=
  match e with
  | Ev_pthread_attr_init s =>
      match st with
      | AttrUninitialized | AttrDestroyed =>
          if s =? 0 then AttrLive else st
      | _ => AttrMisused
      end
  | Ev_pthread_attr_setstacksize _ _ | Ev_pthread_create _ _ _ _ _ =>
      match st with
      | AttrLive => AttrLive
      | _ => AttrMisused
      end
  | Ev_pthread_attr_destroy _ =>
      match st with
      | AttrLive => AttrDestroyed
      | _ => AttrMisused
      end
  | _ => st
  end.

Definition attr_after (es : list event) : attr_state :=
  fold_left attr_step es AttrUninitialized.

(** Whether some attribute initialisation succeeded. *)
Definition attr_initialized (es : list event) : bool :=
  existsb (fun e => match e with
                    | Ev_pthread_attr_init s => s =? 0
                    | _ => false
                    end) es.

(** The threads started: identifiers returned by successful creations. *)
Definition thread_started (e : event) : option pthread_t :=
  match e with
  | Ev_pthread_create _ _ _ s tid => if s =? 0 then Some tid else None
  | _ => None
  end.

Definition threads_started (es : list event) : list pthread_t :=
  omap thread_started es.

(** The stack sizes configured, and every other attribute setter called
    (there is no event for one: the file calls no other setter). *)
Definition stack_sizes (es : list event) : list Z :=
  omap (fun e => match e with
                 | Ev_pthread_attr_setstacksize sz _ => Some sz
                 | _ => None
                 end) es.

(** *** The heap *)

(** Blocks obtained from [mm_alloc] and not yet given to [mm_free]. *)
Definition heap_step (live : list ptr) (e : event) : list ptr :=
  match e with
  | Ev_mm_alloc _ block => if truthy block then live ++ [block] else live
  | Ev_mm_free block => filter (fun b => b <> block) live
  | _ => live
  end.

Definition live_blocks (es : list event) : list ptr :=
  fold_left heap_step es [].

Definition is_create (e : event) : bool :=
  match e with Ev_pthread_create _ _ _ _ _ => true | _ => false end.

(** ** Runs of [thread_launch]

    The four ways the function can run, as the value returned and the calls
    made: [stack] is the configured stack size at the time of the call. *)
Inductive launch_run (stack : Z) (thread function data : ptr) :
  int_t -> list event -> Prop :=
| launch_init_failed s :
    s <> 0 ->
    launch_run stack thread function data s
      [Ev_pthread_attr_init s;
       Ev_mclog_pedantic (launch_message StepAttrInit) s]
| launch_stack_failed s d :
    s <> 0 ->
    launch_run stack thread function data s
      [Ev_pthread_attr_init 0;
       Ev_pthread_attr_setstacksize stack s;
       Ev_mclog_pedantic (launch_message StepAttrStackSize) s;
       Ev_pthread_attr_destroy d]
| launch_create_failed s tid d :
    s <> 0 ->
    launch_run stack thread function data s
      [Ev_pthread_attr_init 0;
       Ev_pthread_attr_setstacksize stack 0;
       Ev_pthread_create thread function data s tid;
       Ev_mclog_pedantic (launch_message StepCreate) s;
       Ev_pthread_attr_destroy d]
| launch_succeeded tid d :
    launch_run stack thread function data 0
      [Ev_pthread_attr_init 0;
       Ev_pthread_attr_setstacksize stack 0;
       Ev_pthread_create thread function data 0 tid;
       Ev_pthread_attr_destroy d].

(** ** Runs of [thread_alloc] *)

Inductive alloc_run (len stack : Z) (function data : ptr) :
  ptr -> list event -> Prop :=
| alloc_no_memory :
    alloc_run len stack function data NULL
      [Ev_mm_alloc len NULL;
       Ev_mclog_pedantic
         "Could not allocate %zu bytes to hold the pthread_t structure." len]
| alloc_launch_failed block r es :
    block <> NULL -> r <> 0 ->
    launch_run stack block function data r es ->
    alloc_run len stack function data NULL
      (Ev_mm_alloc len block :: es ++
       [Ev_mclog_pedantic
          "An error occurred while attempting to spawn the thread. {thread_init = %i}"
          r;
        Ev_mm_free block])
| alloc_succeeded block es :
    block <> NULL ->
    launch_run stack block function data 0 es ->
    alloc_run len stack function data block (Ev_mm_alloc len block :: es).

(** ** Messages of the other wrappers *)

Definition join_message : string :=
  "Could not join to the requested thread. { pthread_join = %i }".

Definition cancel_message : string :=
  "Could not cancel the requested thread. {pthread_cancel = %i}".


(** The source's reading of [ESRCH] from [pthread_cancel]: "ESRCH is returned
    if the thread has already exited". *)
Definition already_exited (os : Platform) (w : World) (thread : pthread_t) : Prop :=
  os_pthread_cancel os w thread = ESRCH.

(** ** More readings of a run *)

(** The two messages of [thread_alloc]. *)
Definition alloc_message : string :=
  "Could not allocate %zu bytes to hold the pthread_t structure.".

Definition spawn_message : string :=
  "An error occurred while attempting to spawn the thread. {thread_init = %i}".

Definition is_log (e : event) : bool :=
  match e with Ev_mclog_pedantic _ _ => true | _ => false end.

(** The calls other than those to the logging macro. *)
Definition without_log (es : list event) : list event :=
  List.filter (fun e => negb (is_log e)) es.

(** The blocks [mm_alloc] answered with, and the blocks given to [mm_free]. *)
Definition allocs (es : list event) : list ptr :=
  omap (fun e => match e with Ev_mm_alloc _ block => Some block | _ => None end) es.

Definition frees (es : list event) : list ptr :=
  omap (fun e => match e with Ev_mm_free block => Some block | _ => None end) es.

(** ** Sample platforms

    Platforms whose answers do not depend on the world, and a world to start
    from, used to run the wrappers on concrete inputs. *)

(** Every call answers with the status given for it; [mm_alloc] hands out
    [block]; a created thread gets identifier 42, which a failed creation
    leaves in [*thread] all the same, and a joined thread exited with value
    77. *)
Definition fixed_platform
    (attr_init stacksize create join kill cancel : int_t) (block : ptr) : Platform :=
  {| sizeof_pthread_t := 8;
     os_pthread_self := fun _ => 1;
     os_pthread_attr_init := fun _ => attr_init;
     os_pthread_attr_setstacksize := fun _ _ => stacksize;
     os_pthread_attr_destroy := fun _ => 0;
     os_pthread_create := fun _ _ _ => mkCreated create 42 true;
     os_pthread_join := fun _ _ => (join, 77);
     os_pthread_kill := fun _ _ _ => kill;
     os_pthread_cancel := fun _ _ => cancel;
     os_pthread_setcancelstate := fun _ _ => 0;
     os_mm_alloc := fun _ _ => block |}.

(** Everything succeeds; storage is handed out at address 4096. *)
Definition healthy : Platform := fixed_platform 0 0 0 0 0 0 4096.

(** A freshly started process with a one-megabyte thread stack configured. *)
Definition boot : World :=
  mkWorld {| system := {| thread_stack_size := 1048576 |} |} ∅ [].

(** ** Proof helpers *)

Ltac nonzero_eqb :=
  repeat match goal with
    | H : ?s <> 0 |- context [?s =? 0] =>
        destruct (Z.eqb_spec s 0); [contradiction|]
    | H : ?s <> 0 |- context [decide (?s <> 0)] =>
        destruct (decide (s <> 0)); [|contradiction]
    end.


(** Splitting a list of calls around one of its elements, case by case. *)
Ltac split_calls H :=
  repeat match type of H with
    | _ :: _ = [] ++ _ :: _ => cbn in H
    | _ :: _ = (_ :: _) ++ _ :: _ => cbn in H
    | [] = ?pre ++ _ :: _ => destruct pre; discriminate H
    | _ :: _ = ?pre ++ _ :: _ =>
        is_var pre; destruct pre as [|? pre]; cbn in H
    | _ :: _ = _ :: _ => injection H as ? H; subst
    end.

Lemma truthy_true x : truthy x = true <-> x <> 0.
Proof. unfold truthy. destruct (Z.eqb_spec x 0); simpl; split; congruence. Qed.

Lemma truthy_false x : truthy x = false <-> x = 0.
Proof. unfold truthy. destruct (Z.eqb_spec x 0); simpl; split; congruence. Qed.

(** Every run of [thread_launch] appends one of the four call sequences to
    the trace, returns the matching status, leaves the configuration alone and
    writes memory only at [thread], only when the thread was created. *)
Lemma thread_launch_spec os thread function data w :
  exists r es mem,
    thread_launch os thread function data w
      = (r, mkWorld (magma_core w) mem (trace w ++ es))
    /\ launch_run (thread_stack_size (system (magma_core w)))
         thread function data r es
    /\ (forall q, q <> thread -> mem !! q = memory w !! q).
Proof.
  unfold thread_launch, pthread_attr_init, pthread_attr_setstacksize,
    pthread_create, pthread_attr_destroy, mclog_pedantic, bind, ask, emit, pure,
    store.
  cbn.
  destruct (truthy (os_pthread_attr_init os w)) eqn:E1; cbn.
  - apply truthy_true in E1.
    eexists _, _, _. split; [rewrite <- ?app_assoc; reflexivity|].
    split; [now constructor | reflexivity].
  - apply truthy_false in E1. rewrite E1.
    match goal with |- context [truthy ?s] => destruct (truthy s) eqn:E2 end; cbn.
    + apply truthy_true in E2.
      eexists _, _, _. split; [rewrite <- ?app_assoc; reflexivity|].
      split; [now constructor | reflexivity].
    + apply truthy_false in E2. rewrite E2.
      match goal with |- context [os_pthread_create ?o ?w' ?f ?d] =>
        destruct (os_pthread_create o w' f d) as [s tid wrote] eqn:E3 end; cbn.
      destruct (Z.eqb_spec s 0) as [->|Hs]; cbn.
      * eexists _, _, _. split; [rewrite <- ?app_assoc; reflexivity|].
        split; [constructor | intros q Hq; now apply lookup_insert_ne].
      * destruct wrote; cbn;
          replace (truthy s) with true by (symmetry; now apply truthy_true);
          cbn;
          (eexists _, _, _; split; [rewrite <- ?app_assoc; reflexivity|];
           split; [now constructor |]);
          [intros q Hq; now apply lookup_insert_ne | reflexivity].
Qed.

(** Reading [returned], [after] and [calls] off an equation for a run. *)
Lemma run_eq {A} (m : M A) w r c mem es :
  m w = (r, mkWorld c mem (trace w ++ es)) ->
  returned m w = r /\ calls m w = es /\ magma_core (after m w) = c
  /\ memory (after m w) = mem.
Proof.
  intros H. unfold returned, calls, after. rewrite H. cbn.
  now rewrite drop_app_length.
Qed.

(** [thread_launch_spec] in terms of the observers. *)
Lemma thread_launch_run os thread function data w :
  launch_run (thread_stack_size (system (magma_core w))) thread function data
    (returned (thread_launch os thread function data) w)
    (calls (thread_launch os thread function data) w).
Proof.
  destruct (thread_launch_spec os thread function data w)
    as (r & es & mem & Heq & Hrun & _).
  apply run_eq in Heq as (-> & -> & _). exact Hrun.
Qed.

(** ** Properties of [thread_launch] *)

(** C2: whatever step fails, [thread_launch] returns with the attribute
    structure released: if its initialisation succeeded the structure has been
    destroyed (exactly once, and never used afterwards), otherwise it was never
    initialised; and a thread has been started exactly when the function
    returns 0, so none is left running on failure. *)
Theorem thread_launch_releases_attributes os thread function data w :
  let es := calls (thread_launch os thread function data) w in
  let r := returned (thread_launch os thread function data) w in
  attr_after es
    = (if attr_initialized es then AttrDestroyed else AttrUninitialized)
  /\ length (threads_started es) = (if r =? 0 then 1%nat else 0%nat).
Proof.
  cbv zeta.
  destruct (thread_launch_run os thread function data w); cbn;
    nonzero_eqb; cbn; auto.
Qed.

(** C3: a failing [thread_launch] is told apart by the step that failed.  The
    first step that came back non-zero decides everything: the function returns
    that status, and logs exactly one entry, whose message is the one of that
    step (it names [pthread_attr_init], [pthread_attr_setstacksize] or
    [pthread_create]) and whose argument is the status.  Without a failing
    step nothing is logged and 0 is returned.  No step is attempted twice. *)
Theorem thread_launch_failure_diagnostic os thread function data w :
  let es := calls (thread_launch os thread function data) w in
  let r := returned (thread_launch os thread function data) w in
  diagnostics es
    = match first_failure es with
      | Some (k, s) => [(launch_message k, s)]
      | None => []
      end
  /\ r = match first_failure es with
         | Some (_, s) => s
         | None => 0
         end
  /\ NoDup (map fst (steps es)).
Proof.
  cbv zeta.
  destruct (thread_launch_run os thread function data w);
    unfold first_failure; cbn; nonzero_eqb; cbn;
    (split; [reflexivity | split; [reflexivity |]]);
    apply (bool_decide_unpack _); reflexivity.
Qed.

(** [thread_launch] only reads the configuration. *)
Lemma thread_launch_config os thread function data w :
  magma_core (after (thread_launch os thread function data) w) = magma_core w.
Proof.
  destruct (thread_launch_spec os thread function data w)
    as (r & es & mem & Heq & _ & _).
  now apply run_eq in Heq as (_ & _ & -> & _).
Qed.

(** C9: the stack size on the attributes of the new thread is
    [magma_core.system.thread_stack_size] as it stands when [thread_launch] is
    entered, whatever [thread], [function] and [data] are.  The function first
    initialises the attributes; when that succeeded its next call sets their
    stack size to the configured value; when that succeeded its next call is
    [pthread_create] for the caller's [thread], [function] and [data].  So
    whenever [pthread_create] is called, the calls before it are exactly the
    successful initialisation and the successful setting of the configured
    stack size: no other attribute is set, and the size is not set again.
    The configuration itself is left as it was. *)
Theorem thread_launch_stack_size_from_config os thread function data w :
  let es := calls (thread_launch os thread function data) w in
  let stack := thread_stack_size (system (magma_core w)) in
  (exists s1,
     es !! 0%nat = Some (Ev_pthread_attr_init s1)
     /\ (s1 = 0 ->
         exists s2,
           es !! 1%nat = Some (Ev_pthread_attr_setstacksize stack s2)
           /\ (s2 = 0 ->
               exists s3 tid,
                 es !! 2%nat
                 = Some (Ev_pthread_create thread function data s3 tid))))
  /\ (forall pre e post,
        es = pre ++ e :: post -> is_create e = true ->
        pre = [Ev_pthread_attr_init 0; Ev_pthread_attr_setstacksize stack 0])
  /\ stack_sizes es = (if attr_initialized es then [stack] else [])
  /\ magma_core (after (thread_launch os thread function data) w)
     = magma_core w.
Proof.
  cbv zeta.
  split; [|split; [|split; [|apply thread_launch_config]]].
  - destruct (thread_launch_run os thread function data w) as [s|s d|s tid d|tid d].
    + exists s. split; [reflexivity | contradiction].
    + exists 0. split; [reflexivity|]. intros _.
      exists s. split; [reflexivity | contradiction].
    + exists 0. split; [reflexivity|]. intros _.
      exists 0. split; [reflexivity|]. intros _. now exists s, tid.
    + exists 0. split; [reflexivity|]. intros _.
      exists 0. split; [reflexivity|]. intros _. now exists 0, tid.
  - intros pre e post Heq Hc.
    destruct (thread_launch_run os thread function data w);
      split_calls Heq; try discriminate Hc; reflexivity.
  - destruct (thread_launch_run os thread function data w); cbn;
      nonzero_eqb; reflexivity.
Qed.

(** C10: the steps [thread_launch] attempted are, in order, the steps before
    some step [k], all of which returned 0, and then [k] itself, whose status
    is the value returned, untranslated; nothing is attempted after it.  The
    function returns 0 exactly when all three steps were attempted and each
    returned 0. *)
Theorem thread_launch_status os thread function data w :
  let es := calls (thread_launch os thread function data) w in
  let r := returned (thread_launch os thread function data) w in
  (exists k, steps es = succeeded_before k ++ [(k, r)])
  /\ (r = 0 <->
      steps es = [(StepAttrInit, 0); (StepAttrStackSize, 0); (StepCreate, 0)]).
Proof.
  cbv zeta.
  destruct (thread_launch_run os thread function data w); cbn.
  - split; [now exists StepAttrInit | split; [congruence | discriminate]].
  - split; [now exists StepAttrStackSize | split; [congruence | discriminate]].
  - split; [now exists StepCreate | split; congruence].
  - split; [now exists StepCreate | split; reflexivity].
Qed.

Lemma thread_alloc_spec os function data w :
  exists p es mem,
    thread_alloc os function data w
      = (p, mkWorld (magma_core w) mem (trace w ++ es))
    /\ alloc_run (sizeof_pthread_t os)
         (thread_stack_size (system (magma_core w))) function data p es.
Proof.
  unfold thread_alloc, mm_alloc, mm_free, mclog_pedantic, bind, ask, emit, pure.
  cbn -[thread_launch].
  destruct (truthy (os_mm_alloc os w (sizeof_pthread_t os))) eqn:E;
    cbn -[thread_launch].
  - apply truthy_true in E.
    match goal with |- context [thread_launch os ?b function data ?w1] =>
      destruct (thread_launch_spec os b function data w1)
        as (r & es & mem & Heq & Hrun & _); rewrite Heq
    end.
    cbn in *. destruct (truthy r) eqn:Er; cbn.
    + apply truthy_true in Er.
      eexists _, _, _. split; [rewrite <- ?app_assoc; reflexivity|].
      now apply alloc_launch_failed.
    + apply truthy_false in Er. subst r.
      eexists _, _, _. split; [rewrite <- ?app_assoc; reflexivity|].
      now apply alloc_succeeded.
  - apply truthy_false in E. rewrite E.
    eexists _, _, _. split; [rewrite <- ?app_assoc; reflexivity|].
    constructor.
Qed.

Lemma thread_alloc_run os function data w :
  alloc_run (sizeof_pthread_t os)
    (thread_stack_size (system (magma_core w))) function data
    (returned (thread_alloc os function data) w)
    (calls (thread_alloc os function data) w).
Proof.
  destruct (thread_alloc_spec os function data w) as (p & es & mem & Heq & Hrun).
  apply run_eq in Heq as (-> & -> & _). exact Hrun.
Qed.

(** A launch never touches the heap, and creates at most where it got to. *)
Lemma launch_run_heap stack thread function data r es live :
  launch_run stack thread function data r es ->
  fold_left heap_step es live = live.
Proof. destruct 1; reflexivity. Qed.

(** A launch frees nothing. *)
Lemma launch_run_frees stack thread function data r es :
  launch_run stack thread function data r es -> frees es = [].
Proof. destruct 1; reflexivity. Qed.

(** C4: [thread_alloc] asks for the handle storage before anything else.
    When that request comes back [NULL] it returns [NULL] without having
    attempted any thread creation.  When storage was handed out and a step of
    the launch then failed, it returns [NULL] after having given the block
    back: [mm_free] of that block is its last call and the only block it
    frees.  When no step failed it returns the block, having freed nothing and
    started one thread.  So whenever it returns [NULL] no block it obtained is
    still allocated, and when it returns a block that block is the one still
    allocated. *)
Theorem thread_alloc_no_leak os function data w :
  let es := calls (thread_alloc os function data) w in
  let p := returned (thread_alloc os function data) w in
  exists block,
    head es = Some (Ev_mm_alloc (sizeof_pthread_t os) block)
    /\ (block = NULL -> p = NULL /\ existsb is_create es = false)
    /\ (block <> NULL -> first_failure es <> None ->
        p = NULL /\ frees es = [block] /\ last es = Some (Ev_mm_free block)
        /\ threads_started es = [])
    /\ (block <> NULL -> first_failure es = None ->
        p = block /\ frees es = [] /\ length (threads_started es) = 1%nat)
    /\ live_blocks es = (if p =? NULL then [] else [p]).
Proof.
  cbv zeta.
  destruct (thread_alloc_run os function data w) as [|block r es Hb Hr Hrun|block es Hb Hrun].
  - exists NULL. cbn.
    split; [reflexivity|]. split; [auto|].
    split; [intros H; now contradiction H|].
    split; [intros H; now contradiction H | reflexivity].
  - exists block. split; [reflexivity|]. split; [contradiction|].
    split; [intros _ _|split].
    + split; [reflexivity|]. split; [|split].
      * cbn. unfold frees in *. rewrite omap_app.
        fold (frees es). now rewrite (launch_run_frees _ _ _ _ _ _ Hrun).
      * now rewrite app_comm_cons, (last_app _ [_; _]).
      * destruct Hrun; try contradiction; cbn; nonzero_eqb; reflexivity.
    + intros _ Hnone. exfalso.
      destruct Hrun; try contradiction; revert Hnone; unfold first_failure;
        cbn; nonzero_eqb; discriminate.
    + unfold live_blocks. cbn. rewrite fold_left_app.
      replace (truthy block) with true by (symmetry; now apply truthy_true).
      rewrite (launch_run_heap _ _ _ _ _ _ _ Hrun). cbn.
      destruct (decide (block <> block)); [contradiction | reflexivity].
  - exists block. split; [reflexivity|]. split; [contradiction|].
    split; [intros _ Hsome|split].
    + exfalso. apply Hsome.
      inversion Hrun; subst; try contradiction; reflexivity.
    + intros _ _. split; [reflexivity|]. split.
      * cbn. apply (launch_run_frees _ _ _ _ _ _ Hrun).
      * inversion Hrun; subst; try contradiction; reflexivity.
    + unfold live_blocks. cbn.
      replace (truthy block) with true by (symmetry; now apply truthy_true).
      rewrite (launch_run_heap _ _ _ _ _ _ _ Hrun). cbn.
      now destruct (Z.eqb_spec block NULL).
Qed.

(** ** Joining *)

(** [thread_join] is [thread_result] with [NULL] for the result pointer. *)
Lemma thread_join_as_result os thread :
  thread_join os thread = thread_result os thread NULL.
Proof. reflexivity. Qed.

Lemma thread_result_spec os thread result w :
  let s := fst (os_pthread_join os w thread) in
  let v := snd (os_pthread_join os w thread) in
  thread_result os thread result w
  = (s, mkWorld (magma_core w)
          (if (s =? 0) && truthy result
           then <[result := v]> (memory w) else memory w)
          (trace w ++
             Ev_pthread_join thread result s v ::
             (if truthy s then [Ev_mclog_pedantic join_message s] else []))).
Proof.
  cbv zeta.
  unfold thread_result, pthread_join, mclog_pedantic, bind, ask, emit, pure,
    store, truthy.
  cbv beta.
  destruct (os_pthread_join os w thread) as [s v].
  cbv beta iota delta [fst snd].
  destruct (s =? 0) eqn:Es, (result =? 0); cbn; rewrite ?Es; cbn;
    rewrite <- ?app_assoc; reflexivity.
Qed.

(** C7: started in the same world on the same handle, [thread_join] and
    [thread_result] make the same [pthread_join] call but for its second
    argument ([NULL] against the caller's [result]), return the status of that
    call, and log the same single entry exactly when the status is non-zero.
    [thread_join] leaves memory as it was; [thread_result] stores the exit
    value at [result] when the join succeeded (and [result] is not [NULL]). *)
Theorem thread_join_result_equivalent os thread result w :
  let s := fst (os_pthread_join os w thread) in
  let v := snd (os_pthread_join os w thread) in
  let log := if s =? 0 then [] else [Ev_mclog_pedantic join_message s] in
  returned (thread_join os thread) w = s
  /\ returned (thread_result os thread result) w = s
  /\ calls (thread_join os thread) w = Ev_pthread_join thread NULL s v :: log
  /\ calls (thread_result os thread result) w
     = Ev_pthread_join thread result s v :: log
  /\ diagnostics (calls (thread_join os thread) w)
     = diagnostics (calls (thread_result os thread result) w)
  /\ memory (after (thread_join os thread) w) = memory w
  /\ memory (after (thread_result os thread result) w)
     = (if (s =? 0) && truthy result
        then <[result := v]> (memory w) else memory w).
Proof.
  cbv zeta.
  pose proof (thread_result_spec os thread result w) as Hr.
  pose proof (thread_result_spec os thread NULL w) as Hj.
  rewrite <- thread_join_as_result in Hj. cbv zeta in Hr, Hj.
  apply run_eq in Hr as (Hr1 & Hr2 & _ & Hr3).
  apply run_eq in Hj as (Hj1 & Hj2 & _ & Hj3).
  rewrite Hr1, Hr2, Hr3, Hj1, Hj2, Hj3.
  unfold truthy. destruct (fst (os_pthread_join os w thread) =? 0); cbn;
    repeat split; reflexivity.
Qed.

(** ** Signalling *)

Lemma thread_signal_spec os thread signal w :
  thread_signal os thread signal w
  = (os_pthread_kill os w thread signal,
     mkWorld (magma_core w) (memory w)
       (trace w ++
          [Ev_pthread_kill thread signal (os_pthread_kill os w thread signal)])).
Proof. reflexivity. Qed.

(** C6: [thread_signal] makes one [pthread_kill] call and nothing else: it
    returns the status of that call unchanged, so it returns non-zero exactly
    when the call failed, and it logs nothing and writes nothing whether the
    call failed or not. *)
Theorem thread_signal_silent os thread signal w :
  let s := os_pthread_kill os w thread signal in
  returned (thread_signal os thread signal) w = s
  /\ calls (thread_signal os thread signal) w
     = [Ev_pthread_kill thread signal s]
  /\ diagnostics (calls (thread_signal os thread signal) w) = []
  /\ memory (after (thread_signal os thread signal) w) = memory w.
Proof.
  cbv zeta.
  pose proof (thread_signal_spec os thread signal w) as H.
  apply run_eq in H as (H1 & H2 & _ & H3).
  rewrite H1, H2, H3. repeat split; reflexivity.
Qed.

(** ** Cancelling *)

Lemma ESRCH_nonzero : ESRCH <> 0.
Proof. discriminate. Qed.

Lemma thread_cancel_spec pedantic os thread w :
  let s := os_pthread_cancel os w thread in
  thread_cancel pedantic os thread w
  = (s, mkWorld (magma_core w) (memory w)
          (trace w ++
             Ev_pthread_cancel thread s ::
             (if pedantic && truthy s && negb (s =? ESRCH)
              then [Ev_mclog_pedantic cancel_message s] else []))).
Proof.
  cbv zeta.
  unfold thread_cancel, pthread_cancel, mclog_pedantic, bind, ask, emit, pure.
  destruct pedantic; cbn; [|reflexivity].
  destruct (truthy (os_pthread_cancel os w thread)
            && negb (os_pthread_cancel os w thread =? ESRCH)); cbn;
    rewrite <- ?app_assoc; reflexivity.
Qed.

(** C1, as the code has it: cancelling a thread that has already exited
    returns [ESRCH], the non-zero status of [pthread_cancel], unchanged, in
    either build; what is suppressed for that case is the diagnostic, not the
    status. *)
Theorem thread_cancel_exited_returns_ESRCH pedantic os thread w :
  already_exited os w thread ->
  returned (thread_cancel pedantic os thread) w = ESRCH
  /\ returned (thread_cancel pedantic os thread) w <> 0
  /\ diagnostics (calls (thread_cancel pedantic os thread) w) = [].
Proof.
  unfold already_exited. intros He.
  pose proof (thread_cancel_spec pedantic os thread w) as H. cbv zeta in H.
  apply run_eq in H as (H1 & H2 & _).
  rewrite H1, H2, He. cbn. rewrite andb_false_r.
  split; [reflexivity | split; [apply ESRCH_nonzero | reflexivity]].
Qed.

(** C5, as the code has it: [thread_cancel] logs (one entry, with the status)
    exactly when the build defines [MAGMA_PEDANTIC] and [pthread_cancel]
    returned a status that is neither 0 nor [ESRCH]; a build without
    [MAGMA_PEDANTIC] never logs here. *)
Theorem thread_cancel_diagnostic pedantic os thread w :
  let s := os_pthread_cancel os w thread in
  diagnostics (calls (thread_cancel pedantic os thread) w)
    = (if pedantic && truthy s && negb (s =? ESRCH)
       then [(cancel_message, s)] else [])
  /\ (diagnostics (calls (thread_cancel pedantic os thread) w) <> []
      <-> pedantic = true /\ s <> 0 /\ s <> ESRCH).
Proof.
  cbv zeta.
  pose proof (thread_cancel_spec pedantic os thread w) as H. cbv zeta in H.
  apply run_eq in H as (_ & H2 & _). rewrite H2. clear H2.
  set (s := os_pthread_cancel os w thread).
  destruct pedantic; cbn.
  - destruct (truthy s) eqn:Et; cbn.
    + apply truthy_true in Et.
      destruct (Z.eqb_spec s ESRCH) as [Hs|Hs]; cbn.
      * split; [reflexivity|]. split; [congruence | tauto].
      * split; [reflexivity|]. split; [tauto | discriminate].
    + apply truthy_false in Et.
      split; [reflexivity|]. split; [congruence | tauto].
  - split; [reflexivity|]. split; [congruence | intros (? & _); discriminate].
Qed.

(** ** Cancellability of the calling thread *)

Lemma thread_cancel_enable_spec os w :
  thread_cancel_enable os w
  = (tt, mkWorld (magma_core w) (memory w)
           (trace w ++
              [Ev_pthread_setcancelstate PTHREAD_CANCEL_ENABLE NULL
                 (os_pthread_setcancelstate os w PTHREAD_CANCEL_ENABLE)])).
Proof. reflexivity. Qed.

Lemma thread_cancel_disable_spec os w :
  thread_cancel_disable os w
  = (tt, mkWorld (magma_core w) (memory w)
           (trace w ++
              [Ev_pthread_setcancelstate PTHREAD_CANCEL_DISABLE NULL
                 (os_pthread_setcancelstate os w PTHREAD_CANCEL_DISABLE)])).
Proof. reflexivity. Qed.

(** C8: [thread_cancel_enable] and [thread_cancel_disable] each make exactly
    one call, [pthread_setcancelstate] with [PTHREAD_CANCEL_ENABLE] and
    [PTHREAD_CANCEL_DISABLE] respectively (and no place for the old state),
    and return unit whatever status comes back; they log nothing, and leave
    memory and the configuration as they were. *)
Theorem thread_cancel_enable_disable os w :
  (calls (thread_cancel_enable os) w
   = [Ev_pthread_setcancelstate PTHREAD_CANCEL_ENABLE NULL
        (os_pthread_setcancelstate os w PTHREAD_CANCEL_ENABLE)]
   /\ returned (thread_cancel_enable os) w = tt
   /\ memory (after (thread_cancel_enable os) w) = memory w
   /\ magma_core (after (thread_cancel_enable os) w) = magma_core w)
  /\ (calls (thread_cancel_disable os) w
      = [Ev_pthread_setcancelstate PTHREAD_CANCEL_DISABLE NULL
           (os_pthread_setcancelstate os w PTHREAD_CANCEL_DISABLE)]
      /\ returned (thread_cancel_disable os) w = tt
      /\ memory (after (thread_cancel_disable os) w) = memory w
      /\ magma_core (after (thread_cancel_disable os) w) = magma_core w).
Proof.
  pose proof (thread_cancel_enable_spec os w) as He.
  pose proof (thread_cancel_disable_spec os w) as Hd.
  apply run_eq in He as (He1 & He2 & He3 & He4).
  apply run_eq in Hd as (Hd1 & Hd2 & Hd3 & Hd4).
  repeat split; assumption.
Qed.

(** ** Concrete runs *)

(** A launch on a healthy platform: four calls, no diagnostic, and the new
    identifier stored through [thread]. *)
Example launch_healthy :
  returned (thread_launch healthy 4096 500 600) boot = 0
  /\ calls (thread_launch healthy 4096 500 600) boot
     = [Ev_pthread_attr_init 0;
        Ev_pthread_attr_setstacksize 1048576 0;
        Ev_pthread_create 4096 500 600 0 42;
        Ev_pthread_attr_destroy 0]
  /\ memory (after (thread_launch healthy 4096 500 600) boot) !! 4096 = Some 42.
Proof. vm_compute. auto. Qed.

(** [pthread_attr_init] fails with 12: nothing to destroy, one diagnostic. *)
Example launch_init_fails :
  returned (thread_launch (fixed_platform 12 0 0 0 0 0 4096) 4096 500 600) boot = 12
  /\ calls (thread_launch (fixed_platform 12 0 0 0 0 0 4096) 4096 500 600) boot
     = [Ev_pthread_attr_init 12;
        Ev_mclog_pedantic (launch_message StepAttrInit) 12].
Proof. vm_compute. auto. Qed.

(** [pthread_attr_setstacksize] fails with 22: logged, destroyed, returned. *)
Example launch_stack_fails :
  returned (thread_launch (fixed_platform 0 22 0 0 0 0 4096) 4096 500 600) boot = 22
  /\ calls (thread_launch (fixed_platform 0 22 0 0 0 0 4096) 4096 500 600) boot
     = [Ev_pthread_attr_init 0;
        Ev_pthread_attr_setstacksize 1048576 22;
        Ev_mclog_pedantic (launch_message StepAttrStackSize) 22;
        Ev_pthread_attr_destroy 0].
Proof. vm_compute. auto. Qed.

(** [pthread_create] fails with 11: the block of [thread_alloc] is freed. *)
Example alloc_create_fails :
  returned (thread_alloc (fixed_platform 0 0 11 0 0 0 4096) 500 600) boot = NULL
  /\ calls (thread_alloc (fixed_platform 0 0 11 0 0 0 4096) 500 600) boot
     = [Ev_mm_alloc 8 4096;
        Ev_pthread_attr_init 0;
        Ev_pthread_attr_setstacksize 1048576 0;
        Ev_pthread_create 4096 500 600 11 42;
        Ev_mclog_pedantic (launch_message StepCreate) 11;
        Ev_pthread_attr_destroy 0;
        Ev_mclog_pedantic
          "An error occurred while attempting to spawn the thread. {thread_init = %i}"
          11;
        Ev_mm_free 4096]
  /\ live_blocks
       (calls (thread_alloc (fixed_platform 0 0 11 0 0 0 4096) 500 600) boot) = [].
Proof. vm_compute. auto. Qed.

(** No storage: [thread_alloc] stops after the diagnostic. *)
Example alloc_no_storage :
  returned (thread_alloc (fixed_platform 0 0 0 0 0 0 NULL) 500 600) boot = NULL
  /\ calls (thread_alloc (fixed_platform 0 0 0 0 0 0 NULL) 500 600) boot
     = [Ev_mm_alloc 8 NULL;
        Ev_mclog_pedantic
          "Could not allocate %zu bytes to hold the pthread_t structure." 8].
Proof. vm_compute. auto. Qed.

(** A successful [thread_result] stores the exit value; a failed join (here
    with status 3) logs and stores nothing. *)
Example result_stores_exit_value :
  returned (thread_result healthy 42 9000) boot = 0
  /\ memory (after (thread_result healthy 42 9000) boot) !! 9000 = Some 77
  /\ memory (after (thread_join healthy 42) boot) = memory boot
  /\ calls (thread_result (fixed_platform 0 0 0 3 0 0 4096) 42 9000) boot
     = [Ev_pthread_join 42 9000 3 77; Ev_mclog_pedantic join_message 3]
  /\ memory (after (thread_result (fixed_platform 0 0 0 3 0 0 4096) 42 9000) boot)
       !! 9000 = None.
Proof. vm_compute. auto 6. Qed.

(** The three faces of [thread_cancel] in a pedantic build (status 0, [ESRCH],
    22) and one in a build without [MAGMA_PEDANTIC]. *)
Example cancel_runs :
  calls (thread_cancel true healthy 42) boot = [Ev_pthread_cancel 42 0]
  /\ calls (thread_cancel true (fixed_platform 0 0 0 0 0 ESRCH 4096) 42) boot
     = [Ev_pthread_cancel 42 ESRCH]
  /\ calls (thread_cancel true (fixed_platform 0 0 0 0 0 22 4096) 42) boot
     = [Ev_pthread_cancel 42 22; Ev_mclog_pedantic cancel_message 22]
  /\ calls (thread_cancel false (fixed_platform 0 0 0 0 0 22 4096) 42) boot
     = [Ev_pthread_cancel 42 22].
Proof. vm_compute. auto. Qed.

(** C1, at a concrete input: on a platform where [pthread_cancel] reports
    [ESRCH] for thread 42 (the thread has already exited), [thread_cancel]
    returns 3, not 0, in a pedantic build and in a plain one. *)
Lemma thread_cancel_exited_not_success :
  already_exited (fixed_platform 0 0 0 0 0 ESRCH 4096) boot 42
  /\ returned (thread_cancel true (fixed_platform 0 0 0 0 0 ESRCH 4096) 42) boot = 3
  /\ returned (thread_cancel false (fixed_platform 0 0 0 0 0 ESRCH 4096) 42) boot = 3
  /\ returned (thread_cancel true (fixed_platform 0 0 0 0 0 ESRCH 4096) 42) boot <> 0.
Proof. vm_compute. repeat split; discriminate. Qed.

(** [thread_cancel_exited_returns_ESRCH] applies on that platform. *)
Lemma thread_cancel_exited_witness :
  already_exited (fixed_platform 0 0 0 0 0 ESRCH 4096) boot 42
  /\ (returned (thread_cancel true (fixed_platform 0 0 0 0 0 ESRCH 4096) 42) boot
      = ESRCH
      /\ returned (thread_cancel true (fixed_platform 0 0 0 0 0 ESRCH 4096) 42) boot
         <> 0
      /\ diagnostics
           (calls (thread_cancel true (fixed_platform 0 0 0 0 0 ESRCH 4096) 42) boot)
         = []).
Proof.
  split; [reflexivity|].
  apply (thread_cancel_exited_returns_ESRCH true
           (fixed_platform 0 0 0 0 0 ESRCH 4096) 42 boot).
  reflexivity.
Defined.

(** C5, at a concrete input: in a build without [MAGMA_PEDANTIC],
    [pthread_cancel] failing with 22 (neither 0 nor [ESRCH]) leaves no
    diagnostic. *)
Lemma thread_cancel_plain_build_silent :
  (os_pthread_cancel (fixed_platform 0 0 0 0 0 22 4096) boot 42 <> 0
   /\ os_pthread_cancel (fixed_platform 0 0 0 0 0 22 4096) boot 42 <> ESRCH)
  /\ diagnostics
       (calls (thread_cancel false (fixed_platform 0 0 0 0 0 22 4096) 42) boot)
     = [].
Proof. vm_compute. repeat split; discriminate. Qed.

(** ** Further properties of the wrappers *)

(** [thread_launch_spec] with the memory it leaves: nothing but [*thread] is
    written, [*thread] holds the identifier of the thread started if there is
    one, and nothing at all is written unless [pthread_create] was called. *)
Lemma thread_launch_spec_mem os thread function data w :
  exists r es mem,
    thread_launch os thread function data w
      = (r, mkWorld (magma_core w) mem (trace w ++ es))
    /\ launch_run (thread_stack_size (system (magma_core w)))
         thread function data r es
    /\ (forall q, q <> thread -> mem !! q = memory w !! q)
    /\ match threads_started es with
       | tid :: _ => mem !! thread = Some tid
       | [] => True
       end
    /\ (existsb is_create es = false -> mem = memory w).
Proof.
  unfold thread_launch, pthread_attr_init, pthread_attr_setstacksize,
    pthread_create, pthread_attr_destroy, mclog_pedantic, bind, ask, emit, pure,
    store.
  cbn.
  destruct (truthy (os_pthread_attr_init os w)) eqn:E1; cbn.
  - apply truthy_true in E1.
    eexists _, _, _. split; [rewrite <- ?app_assoc; reflexivity|].
    split; [now constructor|]. cbn. nonzero_eqb. cbn. auto.
  - apply truthy_false in E1. rewrite E1.
    match goal with |- context [truthy ?s] => destruct (truthy s) eqn:E2 end; cbn.
    + apply truthy_true in E2.
      eexists _, _, _. split; [rewrite <- ?app_assoc; reflexivity|].
      split; [now constructor|]. cbn. auto.
    + apply truthy_false in E2. rewrite E2.
      match goal with |- context [os_pthread_create ?o ?w' ?f ?d] =>
        destruct (os_pthread_create o w' f d) as [s tid wrote] eqn:E3 end; cbn.
      destruct (Z.eqb_spec s 0) as [->|Hs]; cbn.
      * eexists _, _, _. split; [rewrite <- ?app_assoc; reflexivity|].
        split; [constructor|]. cbn.
        split; [intros q Hq; now apply lookup_insert_ne|].
        split; [apply lookup_insert_eq | discriminate].
      * destruct wrote; cbn;
          replace (truthy s) with true by (symmetry; now apply truthy_true);
          cbn;
          (eexists _, _, _; split; [rewrite <- ?app_assoc; reflexivity|];
           split; [now constructor |]); cbn; nonzero_eqb; cbn;
          (split; [|split; [exact I | discriminate]]);
          [intros q Hq; now apply lookup_insert_ne | reflexivity].
Qed.

(** Reading an equation for a run, with the memory kept as it is written. *)
Lemma run_eq_mem {A} (m : M A) w r c mem es :
  m w = (r, mkWorld c mem (trace w ++ es)) ->
  returned m w = r /\ calls m w = es /\ memory (after m w) = mem
  /\ magma_core (after m w) = c /\ trace (after m w) = trace w ++ es.
Proof.
  intros H. unfold returned, calls, after. rewrite H. cbn.
  now rewrite drop_app_length.
Qed.


(** X2: [thread_launch] never asks for a thread before the attributes are
    initialised and the configured stack size is set on them: whenever
    [pthread_create] is attempted, the calls before it are exactly a successful
    [pthread_attr_init] and a successful [pthread_attr_setstacksize] with the
    configured size, and the attempt is followed by [pthread_attr_destroy]. *)
Theorem thread_launch_create_after_stack os thread function data w :
  let es := calls (thread_launch os thread function data) w in
  existsb is_create es = true ->
  exists s tid rest d,
    es = Ev_pthread_attr_init 0
         :: Ev_pthread_attr_setstacksize
              (thread_stack_size (system (magma_core w))) 0
         :: Ev_pthread_create thread function data s tid
         :: rest ++ [Ev_pthread_attr_destroy d]
    /\ existsb is_create rest = false.
Proof.
  cbv zeta.
  destruct (thread_launch_run os thread function data w) as [s|s d|s tid d|tid d];
    cbn; intros Hc; try discriminate.
  - exists s, tid, [Ev_mclog_pedantic (launch_message StepCreate) s], d. now split.
  - exists 0, tid, [], d. now split.
Qed.

(** [thread_launch_create_after_stack] on a healthy platform. *)
Lemma thread_launch_create_after_stack_witness :
  existsb is_create (calls (thread_launch healthy 4096 500 600) boot) = true
  /\ exists s tid rest d,
       calls (thread_launch healthy 4096 500 600) boot
       = Ev_pthread_attr_init 0
         :: Ev_pthread_attr_setstacksize
              (thread_stack_size (system (magma_core boot))) 0
         :: Ev_pthread_create 4096 500 600 s tid
         :: rest ++ [Ev_pthread_attr_destroy d]
       /\ existsb is_create rest = false.
Proof.
  split; [reflexivity|].
  apply (thread_launch_create_after_stack healthy 4096 500 600 boot).
  reflexivity.
Defined.

(** [thread_alloc_spec] with the memory it leaves: nothing outside the block
    is written, and the handle returned holds the identifier of the thread
    started. *)
Lemma thread_alloc_spec_mem os function data w :
  exists p es mem block,
    thread_alloc os function data w
      = (p, mkWorld (magma_core w) mem (trace w ++ es))
    /\ alloc_run (sizeof_pthread_t os)
         (thread_stack_size (system (magma_core w))) function data p es
    /\ head es = Some (Ev_mm_alloc (sizeof_pthread_t os) block)
    /\ (forall q, q <> block -> mem !! q = memory w !! q)
    /\ match threads_started es with
       | tid :: _ => mem !! p = Some tid
       | [] => True
       end.
Proof.
  unfold thread_alloc, mm_alloc, mm_free, mclog_pedantic, bind, ask, emit, pure.
  cbn -[thread_launch].
  destruct (truthy (os_mm_alloc os w (sizeof_pthread_t os))) eqn:E;
    cbn -[thread_launch].
  - apply truthy_true in E.
    match goal with |- context [thread_launch os ?b function data ?w1] =>
      destruct (thread_launch_spec_mem os b function data w1)
        as (r & es & mem & Heq & Hrun & Hframe & Htid & _); rewrite Heq
    end.
    cbn in *. destruct (truthy r) eqn:Er; cbn.
    + apply truthy_true in Er.
      eexists _, _, _, _. split; [rewrite <- ?app_assoc; reflexivity|].
      split; [now apply alloc_launch_failed|].
      split; [reflexivity|]. split; [exact Hframe|].
      destruct Hrun; try contradiction; cbn; nonzero_eqb; now cbn.
    + apply truthy_false in Er. subst r.
      eexists _, _, _, _. split; [rewrite <- ?app_assoc; reflexivity|].
      split; [now apply alloc_succeeded|].
      split; [reflexivity|]. split; [exact Hframe|].
      inversion Hrun; subst; try contradiction. cbn in *. exact Htid.
  - apply truthy_false in E. rewrite E.
    eexists _, _, _, _. split; [rewrite <- ?app_assoc; reflexivity|].
    split; [apply alloc_no_memory|]. cbn. auto.
Qed.

(** X3: the handle [thread_alloc] returns.  It returns [NULL] exactly when no
    thread was started.  Otherwise exactly one thread was started, the pointer
    returned is the block [mm_alloc] handed out, and the identifier of that
    thread is what the block holds.  On every path nothing outside the block
    [mm_alloc] handed out is written. *)
Theorem thread_alloc_handle os function data w :
  let es := calls (thread_alloc os function data) w in
  let p := returned (thread_alloc os function data) w in
  let mem := memory (after (thread_alloc os function data) w) in
  match threads_started es with
  | [] => p = NULL
  | tid :: rest =>
      rest = [] /\ p <> NULL
      /\ head es = Some (Ev_mm_alloc (sizeof_pthread_t os) p)
      /\ mem !! p = Some tid
  end
  /\ exists block,
       head es = Some (Ev_mm_alloc (sizeof_pthread_t os) block)
       /\ forall q, q <> block -> mem !! q = memory w !! q.
Proof.
  cbv zeta.
  destruct (thread_alloc_spec_mem os function data w)
    as (p & es & mem & blk & Heq & Hrun & Hhead & Hframe & Htid).
  apply run_eq_mem in Heq as (-> & -> & -> & _).
  split; [|exists blk; now split].
  destruct Hrun as [|block r es Hb Hr Hrun|block es Hb Hrun].
  - now cbn.
  - destruct Hrun; try contradiction; cbn; nonzero_eqb; now cbn.
  - inversion Hrun; subst; try contradiction. cbn in *.
    repeat split; auto.
Qed.

(** X4: what [thread_alloc] logs.  Nothing when it returns a handle; one entry
    (the allocation message with the size asked for) when there is no storage;
    and two entries when the launch fails: the message of the launch step that
    failed and then the message of [thread_alloc] itself, both with the status
    of that step.  So it logs exactly when it returns [NULL]. *)
Theorem thread_alloc_diagnostics os function data w :
  let es := calls (thread_alloc os function data) w in
  let p := returned (thread_alloc os function data) w in
  diagnostics es
    = (if existsb (fun b => truthy b) (allocs es)
       then match first_failure es with
            | Some (k, s) => [(launch_message k, s); (spawn_message, s)]
            | None => []
            end
       else [(alloc_message, sizeof_pthread_t os)])
  /\ (diagnostics es = [] <-> p <> NULL).
Proof.
  cbv zeta.
  destruct (thread_alloc_run os function data w)
    as [|block r es Hb Hr Hrun|block es Hb Hrun].
  - cbn. split; [reflexivity|]. split; [discriminate | congruence].
  - apply truthy_true in Hb.
    destruct Hrun; try contradiction; unfold first_failure; cbn; rewrite Hb;
      cbn; nonzero_eqb; cbn;
      (split; [reflexivity | split; [discriminate | congruence]]).
  - pose proof Hb as Hb'. apply truthy_true in Hb'.
    inversion Hrun; subst; try contradiction.
    unfold first_failure; cbn. rewrite Hb'. cbn. split; [reflexivity|].
    split; auto.
Qed.

(** X5: how [thread_alloc] uses the allocator.  It asks for storage exactly
    once, for [sizeof (pthread_t)] bytes.  It calls [mm_free] at most once, and
    only on the block it was given, only when that block is not [NULL] and the
    function returns [NULL]: it never frees [NULL], never frees twice, and
    never frees the handle it returns. *)
Theorem thread_alloc_frees os function data w :
  let es := calls (thread_alloc os function data) w in
  let p := returned (thread_alloc os function data) w in
  exists block,
    head es = Some (Ev_mm_alloc (sizeof_pthread_t os) block)
    /\ allocs es = [block]
    /\ frees es = (if truthy block && (p =? NULL) then [block] else []).
Proof.
  cbv zeta.
  destruct (thread_alloc_run os function data w)
    as [|block r es Hb Hr Hrun|block es Hb Hrun].
  - exists NULL. now cbn.
  - exists block. apply truthy_true in Hb. rewrite Hb.
    destruct Hrun; now cbn.
  - exists block. pose proof Hb as Hb'. apply truthy_true in Hb'. rewrite Hb'.
    replace (block =? NULL) with false
      by (symmetry; now apply Z.eqb_neq).
    inversion Hrun; subst; try contradiction; now cbn.
Qed.

(** X6: [thread_alloc] leaves no attribute structure behind either.  On every
    path the attributes of the launch it ran end destroyed if they were
    initialised and untouched otherwise, also when the function goes on to log
    and free after a failed launch; and one thread has been started when a
    handle is returned, none when [NULL] is. *)
Theorem thread_alloc_releases_attributes os function data w :
  let es := calls (thread_alloc os function data) w in
  let p := returned (thread_alloc os function data) w in
  attr_after es
    = (if attr_initialized es then AttrDestroyed else AttrUninitialized)
  /\ length (threads_started es) = (if p =? NULL then 0%nat else 1%nat).
Proof.
  cbv zeta.
  destruct (thread_alloc_run os function data w)
    as [|block r es Hb Hr Hrun|block es Hb Hrun].
  - now cbn.
  - destruct Hrun; try contradiction; cbn; nonzero_eqb; now cbn.
  - replace (block =? NULL) with false
      by (symmetry; now apply Z.eqb_neq).
    inversion Hrun; subst; try contradiction; now cbn.
Qed.

(** X7: [thread_alloc] is [mm_alloc] followed by one [thread_launch] on the
    block obtained.  When storage was handed out, the calls it makes after
    [mm_alloc] are exactly those [thread_launch] makes when started on that
    block in the world [mm_alloc] left, followed by its own message and
    [mm_free] when that launch returned non-zero; it returns the block when
    the launch returned 0 and [NULL] in every other case. *)
Theorem thread_alloc_runs_launch os function data w :
  let len := sizeof_pthread_t os in
  let block := os_mm_alloc os w len in
  let w1 := after (mm_alloc os len) w in
  let r := returned (thread_launch os block function data) w1 in
  calls (thread_alloc os function data) w
    = Ev_mm_alloc len block ::
      (if truthy block
       then calls (thread_launch os block function data) w1
            ++ (if truthy r
                then [Ev_mclog_pedantic spawn_message r; Ev_mm_free block]
                else [])
       else [Ev_mclog_pedantic alloc_message len])
  /\ returned (thread_alloc os function data) w
     = (if truthy block && negb (truthy r) then block else NULL).
Proof.
  cbv zeta.
  set (len := sizeof_pthread_t os). set (block := os_mm_alloc os w len).
  set (w1 := after (mm_alloc os len) w).
  destruct (thread_launch_spec os block function data w1)
    as (r & es & mem & Heq & _ & _).
  pose proof Heq as Hobs. apply run_eq in Hobs as (Hr & Hes & _).
  rewrite Hr, Hes.
  assert (Hrun : thread_alloc os function data w
                 = (if truthy block && negb (truthy r) then block else NULL,
                    mkWorld (magma_core w)
                      (if truthy block then mem else memory w)
                      (trace w ++
                         Ev_mm_alloc len block ::
                         (if truthy block
                          then es ++
                               (if truthy r
                                then [Ev_mclog_pedantic spawn_message r;
                                      Ev_mm_free block]
                                else [])
                          else [Ev_mclog_pedantic alloc_message len])))).
  { unfold thread_alloc, mm_alloc, mm_free, mclog_pedantic, bind, ask, emit,
      pure.
    cbn -[thread_launch]. fold len. fold block.
    destruct (truthy block) eqn:Eb; cbn -[thread_launch].
    - unfold w1, after, mm_alloc, bind, ask, emit, pure in Heq.
      cbn -[thread_launch] in Heq. fold len in Heq. fold block in Heq.
      rewrite Heq. cbn.
      destruct (truthy r); cbn; rewrite <- ?app_assoc, ?app_nil_r; cbn;
        reflexivity.
    - rewrite <- ?app_assoc. reflexivity. }
  apply run_eq in Hrun as (-> & -> & _). split; reflexivity.
Qed.

(** X8: defining [MAGMA_PEDANTIC] changes nothing but the log.  In both
    builds [thread_cancel] returns the same status, makes the same single
    [pthread_cancel] call, and leaves the same memory and configuration; the
    calls of the pedantic build with the logging removed are the calls of the
    plain build. *)
Theorem thread_cancel_build_independent os thread w :
  returned (thread_cancel true os thread) w
    = returned (thread_cancel false os thread) w
  /\ without_log (calls (thread_cancel true os thread) w)
     = calls (thread_cancel false os thread) w
  /\ calls (thread_cancel false os thread) w
     = [Ev_pthread_cancel thread (os_pthread_cancel os w thread)]
  /\ memory (after (thread_cancel true os thread) w)
     = memory (after (thread_cancel false os thread) w)
  /\ magma_core (after (thread_cancel true os thread) w)
     = magma_core (after (thread_cancel false os thread) w).
Proof.
  pose proof (thread_cancel_spec true os thread w) as Ht.
  pose proof (thread_cancel_spec false os thread w) as Hf.
  cbv zeta in Ht, Hf.
  apply run_eq_mem in Ht as (Ht1 & Ht2 & Ht3 & Ht4 & _).
  apply run_eq_mem in Hf as (Hf1 & Hf2 & Hf3 & Hf4 & _).
  rewrite Ht1, Ht2, Ht3, Ht4, Hf1, Hf2, Hf3, Hf4. cbn.
  destruct (truthy (os_pthread_cancel os w thread)
            && negb (os_pthread_cancel os w thread =? ESRCH));
    repeat split; reflexivity.
Qed.

(** A failed [pthread_create] may leave its mark: here [*thread] held 57005
    before the launch, creation fails with 11, and the platform has written
    there all the same; the address next to it is untouched. *)
Example launch_create_fails_clobbers :
  let w := mkWorld (magma_core boot) (<[4096 := 57005]> (<[4104 := 7]> ∅)) [] in
  returned (thread_launch (fixed_platform 0 0 11 0 0 0 4096) 4096 500 600) w = 11
  /\ memory (after (thread_launch (fixed_platform 0 0 11 0 0 0 4096) 4096 500 600) w)
       !! 4096 = Some 42
  /\ memory (after (thread_launch (fixed_platform 0 0 11 0 0 0 4096) 4096 500 600) w)
       !! 4104 = Some 7.
Proof. vm_compute. auto. Qed.
